(** * CheckboxField: the two checkbox field types of the form builder

    A shallow embedding of [src/components/fields/CheckboxField.tsx]
    (single checkbox and checkbox group), of the parts of zod and
    react-hook-form these files rely on, and of the designer and submission
    code that calls them. *)

From Stdlib Require Import List String Ascii ZArith Bool Lia.
Import ListNotations.
Open Scope string_scope.
Open Scope Z_scope.
Set Warnings "-register-all".

(** ** JavaScript values *)

(** A JS string is its sequence of UTF-16 code units: [.length] counts them. *)
Definition jsstr := list Z.

(** String literals of the source (all ASCII) as JS strings. *)
Fixpoint js (s : string) : jsstr :=
  match s with
  | EmptyString => []
  | String a s' => Z.of_nat (nat_of_ascii a) :: js s'
  end.

Fixpoint jsstr_eqb (a b : jsstr) : bool :=
  match a, b with
  | [], [] => true
  | x :: a', y :: b' => Z.eqb x y && jsstr_eqb a' b'
  | _, _ => false
  end.

(** Plain JSON-like values; objects are association lists, read first
    match first. Objects are embedded by value here; the module [Aliasing]
    below gives them reference semantics where sharing matters. *)
Inductive jsval : Type :=
| JUndef
| JNull
| JBool (b : bool)
| JNum (n : Z)
| JStr (s : jsstr)
| JArr (xs : list jsval)
| JObj (fs : list (string * jsval)).

Fixpoint lookup (fs : list (string * jsval)) (k : string) : jsval :=
  match fs with
  | [] => JUndef
  | (k', v) :: fs' => if String.eqb k k' then v else lookup fs' k
  end.

(** JS truthiness, as used by [if (element.extraAttributes.required)]. *)
Definition truthy (v : jsval) : bool :=
  match v with
  | JUndef | JNull => false
  | JBool b => b
  | JNum n => negb (Z.eqb n 0)
  | JStr s => match s with [] => false | _ => true end
  | JArr _ | JObj _ => true
  end.

(** ** Results: values or exceptions *)

Inductive error : Type :=
| TypeError
| UnknownFieldType (tag : jsstr).

Inductive result (A : Type) : Type :=
| Ok (a : A)
| Throw (e : error).
Arguments Ok {A} a.
Arguments Throw {A} e.

Definition bind {A B} (r : result A) (f : A -> result B) : result B :=
  match r with
  | Ok a => f a
  | Throw e => Throw e
  end.

Notation "x <- r ;; k" := (bind r (fun x => k))
  (at level 61, r at next level, right associativity).

(** Property read [v.k]: reading a property of [undefined] or [null]
    throws; other primitives have none of the properties read here. *)
Definition get (v : jsval) (k : string) : result jsval :=
  match v with
  | JObj fs => Ok (lookup fs k)
  | JUndef | JNull => Throw TypeError
  | _ => Ok JUndef
  end.

(** Destructuring a value that is an object by its type
    ([const { label, ... } = values]). *)
Definition prop (v : jsval) (k : string) : jsval :=
  match v with
  | JObj fs => lookup fs k
  | _ => JUndef
  end.

(** [a === "lit"] for a string literal. *)
Definition strict_eq_str (v : jsval) (lit : jsstr) : bool :=
  match v with
  | JStr s => jsstr_eqb s lit
  | _ => false
  end.

(** ** [String.prototype.trim]

    ECMAScript WhiteSpace and LineTerminator code units: TAB, LF, VT, FF,
    CR, SPACE, NBSP, U+1680, U+2000..U+200A, LS, PS, U+202F, U+205F,
    U+3000 and the BOM U+FEFF. *)
Definition is_js_ws (c : Z) : bool :=
  ((9 <=? c) && (c <=? 13)) || (c =? 32) || (c =? 160) || (c =? 5760)
  || ((8192 <=? c) && (c <=? 8202)) || (c =? 8232) || (c =? 8233)
  || (c =? 8239) || (c =? 8287) || (c =? 12288) || (c =? 65279).

Fixpoint drop_ws (s : jsstr) : jsstr :=
  match s with
  | [] => []
  | c :: s' => if is_js_ws c then drop_ws s' else s
  end.

Definition trim (s : jsstr) : jsstr := rev (drop_ws (rev (drop_ws s))).

(** Calling [v.trim()]: only strings have the method. *)
Definition call_trim (v : jsval) : result jsstr :=
  match v with
  | JStr s => Ok (trim s)
  | _ => Throw TypeError
  end.

(** ** zod schemas

    The fragment used here: [z.string()] with optional [.min]/[.max]
    (counted in code units), [z.boolean()], [z.array(e)] with optional
    [.min], and [z.object(shape)], which accepts a non-array object and
    outputs a new object with exactly the keys of its shape, in shape
    order (unknown keys are stripped). *)
Inductive schema : Type :=
| ZString (mn mx : option nat)
| ZBoolean
| ZArray (el : schema) (mn : option nat)
| ZObject (shape : list (string * schema)).

Definition min_ok (mn : option nat) (n : nat) : bool :=
  match mn with None => true | Some m => Nat.leb m n end.
Definition max_ok (mx : option nat) (n : nat) : bool :=
  match mx with None => true | Some m => Nat.leb n m end.

Fixpoint parse (sc : schema) (v : jsval) {struct sc} : option jsval :=
  match sc, v with
  | ZString mn mx, JStr s =>
      if min_ok mn (List.length s) && max_ok mx (List.length s) then Some (JStr s)
      else None
  | ZBoolean, JBool b => Some (JBool b)
  | ZArray el mn, JArr xs =>
      let fix items (xs : list jsval) : option (list jsval) :=
        match xs with
        | [] => Some []
        | x :: xs' =>
            match parse el x, items xs' with
            | Some y, Some ys => Some (y :: ys)
            | _, _ => None
            end
        end in
      match items xs with
      | Some ys => if min_ok mn (List.length xs) then Some (JArr ys) else None
      | None => None
      end
  | ZObject shape, JObj fs =>
      let fix fields (sh : list (string * schema))
          : option (list (string * jsval)) :=
        match sh with
        | [] => Some []
        | (k, s) :: sh' =>
            match parse s (lookup fs k), fields sh' with
            | Some y, Some ys => Some ((k, y) :: ys)
            | _, _ => None
            end
        end in
      match fields shape with
      | Some out => Some (JObj out)
      | None => None
      end
  | _, _ => None
  end.

Definition accepts (sc : schema) (v : jsval) : bool :=
  match parse sc v with Some _ => true | None => false end.

(** ** Field instances and field type definitions ([@/types/formElementType]) *)

Module FormElementType.

Record FormElementInstance : Type := {
  id : jsstr;
  type : jsstr;
  extraAttributes : jsval
}.

Record FormElement : Type := {
  fe_type : jsstr;
  construct : jsstr -> FormElementInstance;
  designerButtonLabel : string;
  validate : FormElementInstance -> jsval -> result bool
}.

End FormElementType.
Import FormElementType.

(** Modelled from the spec: [updateElement] of the designer context
    ([useDesigner]), absent from this snapshot. It replaces the instance
    carrying the given id by the new instance and leaves the rest of the
    ordered document as it is. *)
Fixpoint updateElement (i : jsstr) (el : FormElementInstance)
    (elements : list FormElementInstance) : list FormElementInstance :=
  match elements with
  | [] => []
  | e :: es =>
      if jsstr_eqb (id e) i then el :: es else e :: updateElement i el es
  end.

(** react-hook-form's [form.handleSubmit(onValid)] with [zodResolver(sc)]:
    the resolver parses the form values; [onValid] runs on the parsed
    output only when parsing succeeds, and nothing is committed otherwise. *)
Definition handleSubmit (sc : schema)
    (onValid : jsval -> list FormElementInstance -> list FormElementInstance)
    (formValues : jsval) (elements : list FormElementInstance)
    : list FormElementInstance :=
  match parse sc formValues with
  | Some values => onValid values elements
  | None => elements
  end.

(** ** The single checkbox (first half of [CheckboxField.tsx]) *)
Module CheckboxSingle.

Definition type : jsstr := js "CheckboxField".

Definition extraAttributes : jsval :=
  JObj [("label", JStr (js "Accept Terms and Conditions"));
        ("helperText", JStr (js "You must agree to proceed"));
        ("required", JBool true)].

Definition propertiesSchema : schema :=
  ZObject [("label", ZString (Some 2%nat) (Some 50%nat));
           ("helperText", ZString None (Some 200%nat));
           ("required", ZBoolean)].

Definition construct (i : jsstr) : FormElementInstance :=
  {| id := i; FormElementType.type := type;
     FormElementType.extraAttributes := extraAttributes |}.

Definition validate (formElement : FormElementInstance) (currentValue : jsval)
    : result bool :=
  req <- get (FormElementType.extraAttributes formElement) "required" ;;
  if truthy req then Ok (strict_eq_str currentValue (js "true"))
  else Ok true.

Definition CheckboxFieldFormElement : FormElement :=
  {| fe_type := type;
     FormElementType.construct := construct;
     designerButtonLabel := "Checkbox Field";
     FormElementType.validate := validate |}.

(** [PropertiesComponent.applyChanges]. *)
Definition applyChanges (element : FormElementInstance) (values : jsval)
    (elements : list FormElementInstance) : list FormElementInstance :=
  updateElement (id element)
    {| id := id element; FormElementType.type := FormElementType.type element;
       FormElementType.extraAttributes :=
         JObj [("label", prop values "label");
               ("helperText", prop values "helperText");
               ("required", prop values "required")] |}
    elements.

(** The properties form's [onBlur={form.handleSubmit(applyChanges)}]. *)
Definition onBlur (element : FormElementInstance) (formValues : jsval)
    (elements : list FormElementInstance) : list FormElementInstance :=
  handleSubmit propertiesSchema (applyChanges element) formValues elements.

End CheckboxSingle.

(** ** The checkbox group (second half of [CheckboxField.tsx]) *)
Module CheckboxGroup.

Definition type : jsstr := js "CheckboxField".

Definition extraAttributes : jsval :=
  JObj [("label", JStr (js "Select your interests"));
        ("helperText", JStr (js "Choose all that apply"));
        ("required", JBool false);
        ("options", JArr [JStr (js "Option 1"); JStr (js "Option 2");
                          JStr (js "Option 3")])].

Definition propertiesSchema : schema :=
  ZObject [("label", ZString (Some 2%nat) (Some 50%nat));
           ("helperText", ZString None (Some 200%nat));
           ("required", ZBoolean);
           ("options", ZArray (ZString None None) (Some 1%nat))].

Definition construct (i : jsstr) : FormElementInstance :=
  {| id := i; FormElementType.type := type;
     FormElementType.extraAttributes := extraAttributes |}.

(** [return currentValue.trim().length > 0] when required. *)
Definition validate (formElement : FormElementInstance) (currentValue : jsval)
    : result bool :=
  req <- get (FormElementType.extraAttributes formElement) "required" ;;
  if truthy req then
    t <- call_trim currentValue ;;
    Ok (Nat.ltb 0 (List.length t))
  else Ok true.

Definition CheckboxFieldFormElement : FormElement :=
  {| fe_type := type;
     FormElementType.construct := construct;
     designerButtonLabel := "Checkbox Group";
     FormElementType.validate := validate |}.

Definition applyChanges (element : FormElementInstance) (values : jsval)
    (elements : list FormElementInstance) : list FormElementInstance :=
  updateElement (id element)
    {| id := id element; FormElementType.type := FormElementType.type element;
       FormElementType.extraAttributes :=
         JObj [("label", prop values "label");
               ("helperText", prop values "helperText");
               ("required", prop values "required");
               ("options", prop values "options")] |}
    elements.

Definition onBlur (element : FormElementInstance) (formValues : jsval)
    (elements : list FormElementInstance) : list FormElementInstance :=
  handleSubmit propertiesSchema (applyChanges element) formValues elements.

End CheckboxGroup.

(** The field type definitions written in this source file. *)
Definition source_definitions : list FormElement :=
  [CheckboxSingle.CheckboxFieldFormElement; CheckboxGroup.CheckboxFieldFormElement].

(** ** Submission validation *)

(** A submission value map: instance id to submitted string. Reading
    [submittedValues[id]] gives [undefined] for an absent id. *)
Definition SubmissionValues := list (jsstr * jsstr).

Fixpoint value_of (vs : SubmissionValues) (k : jsstr) : jsval :=
  match vs with
  | [] => JUndef
  | (k', v) :: vs' => if jsstr_eqb k k' then JStr v else value_of vs' k
  end.

Definition Registry := jsstr -> option FormElement.

Definition resolve (reg : Registry) (tag : jsstr) : result FormElement :=
  match reg tag with
  | Some d => Ok d
  | None => Throw (UnknownFieldType tag)
  end.

(** Modelled from the spec: the Submission Validator (section 4.3), absent
    from this snapshot. Every instance, in document order, is resolved
    through the registry and its [validate] is invoked on the submitted
    value for its id; every verdict is recorded (no short-circuit). An
    exception thrown by a field's [validate] is encoded as an invalid entry
    for that field (section 7); an unregistered tag aborts the report. *)
Fixpoint perField (reg : Registry) (doc : list FormElementInstance)
    (vs : SubmissionValues) : result (list (jsstr * bool)) :=
  match doc with
  | [] => Ok []
  | inst :: doc' =>
      d <- resolve reg (type inst) ;;
      let b := match validate d inst (value_of vs (id inst)) with
               | Ok b => b
               | Throw _ => false
               end in
      rest <- perField reg doc' vs ;;
      Ok ((id inst, b) :: rest)
  end.

(** Modelled from the spec: the validation report, [allValid] being the
    conjunction of all recorded verdicts. *)
Definition validateForm (reg : Registry) (doc : list FormElementInstance)
    (vs : SubmissionValues) : result (list (jsstr * bool) * bool) :=
  es <- perField reg doc vs ;;
  Ok (es, forallb snd es).

(** ** Object identity: the configuration objects on the heap

    JS objects are references. Here a configuration object lives in a heap
    cell and an instance holds its address, so that sharing between
    instances is visible. *)
Module Aliasing.

Definition obj := list (string * jsval).

Record Heap : Type := {
  mem : list (nat * obj);
  next : nat
}.

Definition empty : Heap := {| mem := []; next := 0%nat |}.

Fixpoint read_mem (m : list (nat * obj)) (l : nat) : option obj :=
  match m with
  | [] => None
  | (l', o) :: m' => if Nat.eqb l l' then Some o else read_mem m' l
  end.

Definition read (h : Heap) (l : nat) : option obj := read_mem (mem h) l.

(** Object literal evaluation: a fresh cell. *)
Definition alloc (h : Heap) (o : obj) : nat * Heap :=
  (next h, {| mem := (next h, o) :: mem h; next := S (next h) |}).

(** [o.k = v] on an object value: an existing key keeps its place, a new
    key is appended. *)
Fixpoint set_field (o : obj) (k : string) (v : jsval) : obj :=
  match o with
  | [] => [(k, v)]
  | (k', v') :: o' =>
      if String.eqb k k' then (k', v) :: o' else (k', v') :: set_field o' k v
  end.

(** In-place mutation [r.k = v] through the reference [r]. *)
Definition set_prop (h : Heap) (r : nat) (k : string) (v : jsval) : Heap :=
  {| mem := map (fun '(l, o) => if Nat.eqb l r then (l, set_field o k v) else (l, o))
              (mem h);
     next := next h |}.

Definition fields_of (v : jsval) : obj :=
  match v with JObj fs => fs | _ => [] end.

Record Instance : Type := {
  i_id : jsstr;
  i_type : jsstr;
  i_attrs : nat
}.

Section Variant.
(** A variant: its tag, its module-level [extraAttributes] constant and the
    keys [applyChanges] copies from the validated values. *)
Variable tag : jsstr.
Variable defaults : jsval.
Variable keys : list string.

(** Module initialisation: [const extraAttributes = {...}] is evaluated
    once, giving the template's address. *)
Definition load (h : Heap) : nat * Heap := alloc h (fields_of defaults).

(** [construct: (id) => ({ id, type, extraAttributes })]: the instance
    refers to the template itself. *)
Definition construct (template : nat) (i : jsstr) : Instance :=
  {| i_id := i; i_type := tag; i_attrs := template |}.

(** Modelled from the spec: [updateElement] of [useDesigner], as above. *)
Fixpoint updateElement (i : jsstr) (el : Instance) (elements : list Instance)
    : list Instance :=
  match elements with
  | [] => []
  | e :: es => if jsstr_eqb (i_id e) i then el :: es else e :: updateElement i el es
  end.

(** [applyChanges]: the literal [{ label, helperText, ... }] is a fresh
    object; [{...element, extraAttributes}] a fresh instance. *)
Definition applyChanges (h : Heap) (element : Instance) (values : jsval)
    (elements : list Instance) : Heap * list Instance :=
  let '(l, h') := alloc h (map (fun k => (k, prop values k)) keys) in
  (h', updateElement (i_id element)
         {| i_id := i_id element; i_type := i_type element; i_attrs := l |}
         elements).

End Variant.

Definition single_keys : list string := ["label"; "helperText"; "required"].
Definition group_keys : list string := ["label"; "helperText"; "required"; "options"].

End Aliasing.

(** ** Strings and arrays used by the form components *)

(** [s.split(sep)] for a one-code-unit separator: [""] splits to [[""]]. *)
Fixpoint split_at (sep : Z) (s : jsstr) : list jsstr :=
  match s with
  | [] => [[]]
  | x :: s' =>
      if Z.eqb x sep then [] :: split_at sep s'
      else match split_at sep s' with
           | [] => [[x]]
           | w :: ws => (x :: w) :: ws
           end
  end.

(** [xs.join(sep)]: [[].join(sep)] is [""]. *)
Fixpoint join (sep : jsstr) (xs : list jsstr) : jsstr :=
  match xs with
  | [] => []
  | [x] => x
  | x :: xs' => (x ++ sep ++ join sep xs')%list
  end.

Definition comma : Z := 44.

(** [b.toString()] for a boolean. *)
Definition bool_toString (b : bool) : jsstr :=
  if b then js "true" else js "false".

(** ** The single checkbox's form component *)
Module CheckboxSingleForm.

(** [useState(defaultValue === "true")]; [defaultValue] may be undefined. *)
Definition initialChecked (defaultValue : option jsstr) : bool :=
  match defaultValue with
  | Some s => jsstr_eqb s (js "true")
  | None => false
  end.

(** [validateField]: its verdict and the error message it sets. *)
Definition validateField (required : jsval) (isChecked : bool)
    : bool * option string :=
  if truthy required && negb isChecked then (false, Some "This field is required")
  else (true, None).

(** [handleChange]: the new [checked] state, the [validateField] outcome
    and the [submitValue(element.id, isChecked.toString())] call. *)
Definition handleChange (element : FormElementInstance) (isChecked : bool)
    : bool * (bool * option string) * (jsstr * jsstr) :=
  (isChecked,
   validateField (prop (extraAttributes element) "required") isChecked,
   (id element, bool_toString isChecked)).

End CheckboxSingleForm.

(** ** The checkbox group's form component *)
Module CheckboxGroupForm.

(** [defaultValue ? defaultValue.split(",").filter(v => v.trim()) : []]:
    pieces are kept untrimmed, blank ones dropped. *)
Definition initialSelected (defaultValue : option jsstr) : list jsstr :=
  match defaultValue with
  | Some s =>
      if truthy (JStr s)
      then filter (fun v => truthy (JStr (trim v))) (split_at comma s)
      else []
  | None => []
  end.

Definition validateField (required : jsval) (selected : list jsstr)
    : bool * option string :=
  if truthy required && Nat.eqb (List.length selected) 0
  then (false, Some "Please select at least one option")
  else (true, None).

(** [newSelected] of [handleChange]. *)
Definition newSelected (selectedOptions : list jsstr) (option : jsstr)
    (isChecked : bool) : list jsstr :=
  if isChecked then (selectedOptions ++ [option])%list
  else filter (fun item => negb (jsstr_eqb item option)) selectedOptions.

(** [handleChange]: the new selection, the [validateField] outcome and the
    [submitValue(element.id, newSelected.join(","))] call. *)
Definition handleChange (element : FormElementInstance)
    (selectedOptions : list jsstr) (option' : jsstr) (isChecked : bool)
    : list jsstr * (bool * option string) * (jsstr * jsstr) :=
  let sel := newSelected selectedOptions option' isChecked in
  (sel, validateField (prop (extraAttributes element) "required") sel,
   (id element, join [comma] sel)).

End CheckboxGroupForm.

(** ** The checkbox group's options editor *)
Module CheckboxGroupOptions.

(** [useState(element.extraAttributes.options.join(", "))]. *)
Definition initialOptionsInput (options : list jsstr) : jsstr :=
  join [comma; 32] options.

(** The options input's [onBlur]: split on commas, trim, drop empty
    pieces, fall back to ["Option 1"]; the result goes to [field.onChange]. *)
Definition finalOptions (optionsInput : jsstr) : list jsstr :=
  let options := filter (fun opt => Nat.ltb 0 (List.length opt))
                   (map trim (split_at comma optionsInput)) in
  if Nat.ltb 0 (List.length options) then options else [js "Option 1"].

(** [setOptionsInput(finalOptions.join(", "))]. *)
Definition onBlurInput (optionsInput : jsstr) : jsstr :=
  join [comma; 32] (finalOptions optionsInput).

End CheckboxGroupOptions.

(** * Properties *)

(** ** Basic facts *)

Lemma jsstr_eqb_true_iff (a b : jsstr) : jsstr_eqb a b = true <-> a = b.
Proof.
  revert b; induction a as [|x a IH]; intros [|y b]; simpl;
    try (split; congruence).
  rewrite andb_true_iff, Z.eqb_eq, IH. split.
  - intros [-> ->]; reflexivity.
  - intros H; injection H; auto.
Qed.

Lemma jsstr_eqb_refl (a : jsstr) : jsstr_eqb a a = true.
Proof. apply jsstr_eqb_true_iff; reflexivity. Qed.

Lemma forallb_drop_ws (s : jsstr) :
  forallb is_js_ws (drop_ws s) = forallb is_js_ws s.
Proof.
  induction s as [|c s IH]; simpl; [reflexivity|].
  destruct (is_js_ws c) eqn:E; simpl; [exact IH | rewrite E; reflexivity].
Qed.

Lemma drop_ws_nil_iff (s : jsstr) : drop_ws s = [] <-> forallb is_js_ws s = true.
Proof.
  induction s as [|c s IH]; simpl; [tauto|].
  destruct (is_js_ws c); simpl; [exact IH | split; discriminate].
Qed.

Lemma forallb_rev {A} (f : A -> bool) (l : list A) :
  forallb f (rev l) = forallb f l.
Proof.
  induction l as [|x l IH]; simpl; [reflexivity|].
  rewrite forallb_app, IH; simpl. rewrite andb_true_r, andb_comm; reflexivity.
Qed.

(** A trimmed string is empty exactly when every code unit is white space. *)
Lemma trim_nil_iff (s : jsstr) : trim s = [] <-> forallb is_js_ws s = true.
Proof.
  unfold trim. split.
  - intros H. apply (f_equal (@rev Z)) in H. rewrite rev_involutive in H.
    apply drop_ws_nil_iff in H. rewrite forallb_rev, forallb_drop_ws in H.
    exact H.
  - intros H. replace (drop_ws (rev (drop_ws s))) with (@nil Z); [reflexivity|].
    symmetry. apply drop_ws_nil_iff. rewrite forallb_rev, forallb_drop_ws.
    exact H.
Qed.

Lemma trim_nonempty (s : jsstr) :
  Nat.ltb 0 (List.length (trim s)) = existsb (fun c => negb (is_js_ws c)) s.
Proof.
  destruct (trim s) as [|c t] eqn:E; simpl.
  - apply trim_nil_iff in E. symmetry.
    induction s as [|x s IH]; simpl in *; [reflexivity|].
    apply andb_true_iff in E as [-> E]. simpl. exact (IH E).
  - symmetry. apply not_false_iff_true. intros H.
    assert (forallb is_js_ws s = true) as F.
    { clear E. induction s as [|x s IH]; simpl in *; [reflexivity|].
      apply orb_false_iff in H as [H1 H2].
      apply negb_false_iff in H1. rewrite H1. exact (IH H2). }
    apply trim_nil_iff in F. congruence.
Qed.

Example group_default_accepted :
  accepts CheckboxGroup.propertiesSchema CheckboxGroup.extraAttributes = true.
Proof. reflexivity. Qed.

Example group_required_space :
  CheckboxGroup.validate
    {| id := js "a"; type := CheckboxGroup.type;
       extraAttributes := JObj [("required", JBool true)] |}
    (JStr (js "  ")) = Ok false.
Proof. reflexivity. Qed.

(** ** zod: the accepted inputs, field by field *)

Lemma accepts_object_nil (fs : list (string * jsval)) :
  accepts (ZObject []) (JObj fs) = true.
Proof. reflexivity. Qed.

Lemma accepts_object_cons k s sh fs :
  accepts (ZObject ((k, s) :: sh)) (JObj fs)
  = accepts s (lookup fs k) && accepts (ZObject sh) (JObj fs).
Proof.
  unfold accepts; simpl.
  destruct (parse s (lookup fs k)); simpl; [|reflexivity].
  match goal with
  | |- context [match ?F sh with _ => _ end] => destruct (F sh)
  end; reflexivity.
Qed.

Lemma accepts_array_cons el x xs :
  accepts (ZArray el None) (JArr (x :: xs))
  = accepts el x && accepts (ZArray el None) (JArr xs).
Proof.
  unfold accepts; simpl.
  destruct (parse el x); simpl; [|reflexivity].
  match goal with
  | |- context [match ?F xs with _ => _ end] => destruct (F xs)
  end; reflexivity.
Qed.

Lemma accepts_array_min el mn xs :
  accepts (ZArray el mn) (JArr xs)
  = accepts (ZArray el None) (JArr xs) && min_ok mn (List.length xs).
Proof.
  unfold accepts; simpl.
  match goal with
  | |- context [match ?F xs with _ => _ end] => destruct (F xs)
  end; simpl; [|reflexivity].
  destruct (min_ok mn (List.length xs)); reflexivity.
Qed.

Lemma accepts_string_iff mn mx v :
  accepts (ZString mn mx) v = true <->
  exists s, v = JStr s /\ min_ok mn (List.length s) = true
            /\ max_ok mx (List.length s) = true.
Proof.
  unfold accepts; destruct v; simpl;
    try (split; [discriminate | intros (s' & H & _); discriminate]).
  destruct (min_ok mn (List.length s)) eqn:E1, (max_ok mx (List.length s)) eqn:E2;
    simpl; split; try discriminate;
    try (intros; eexists; repeat split; eauto);
    intros (s' & H & H1 & H2); injection H; intros ->; congruence.
Qed.

Lemma accepts_boolean_iff v :
  accepts ZBoolean v = true <-> exists b, v = JBool b.
Proof.
  unfold accepts; destruct v; simpl;
    try (split; [discriminate | intros (b' & H); discriminate]).
  split; eauto.
Qed.

Lemma accepts_string_array_iff xs :
  accepts (ZArray (ZString None None) None) (JArr xs) = true <->
  Forall (fun x => exists s, x = JStr s) xs.
Proof.
  induction xs as [|x xs IH].
  - split; [constructor | reflexivity].
  - rewrite accepts_array_cons, andb_true_iff, IH, Forall_cons_iff.
    rewrite accepts_string_iff. split.
    + intros [(s & -> & _) H]; eauto.
    + intros [(s & ->) H]; split; [exists s; auto | exact H].
Qed.

(** ** Field definitions *)

(** A checkbox-group instance with [required] set and the two options of
    the scenario. *)
Definition group_instance (i : jsstr) (label helperText : jsval)
    (options : list jsval) : FormElementInstance :=
  {| id := i; type := CheckboxGroup.type;
     extraAttributes := JObj [("label", label); ("helperText", helperText);
                              ("required", JBool true); ("options", JArr options)] |}.

(** A single-checkbox instance with [required] set. *)
Definition single_instance (i : jsstr) (label helperText : jsval)
    : FormElementInstance :=
  {| id := i; type := CheckboxSingle.type;
     extraAttributes := JObj [("label", label); ("helperText", helperText);
                              ("required", JBool true)] |}.

(** C1: for a required checkbox group with options "Option 1" and
    "Option 2", validation rejects "" and accepts "Option 1". *)
Theorem group_required_scenario (i : jsstr) (label helperText : jsval) :
  let inst := group_instance i label helperText
                [JStr (js "Option 1"); JStr (js "Option 2")] in
  validate CheckboxGroup.CheckboxFieldFormElement inst (JStr (js "")) = Ok false
  /\ validate CheckboxGroup.CheckboxFieldFormElement inst (JStr (js "Option 1"))
     = Ok true.
Proof. split; reflexivity. Qed.

(** C2: a required single checkbox accepts a submitted string exactly when it
    is "true"; it rejects "false"; a validation report over such a field
    records true for "true" (and is all valid) and false for "false". *)
Theorem single_required_true_only (reg : Registry) (i : jsstr)
    (label helperText : jsval)
    (Hreg : reg CheckboxSingle.type = Some CheckboxSingle.CheckboxFieldFormElement) :
  let inst := single_instance i label helperText in
  (forall v, validate CheckboxSingle.CheckboxFieldFormElement inst (JStr v) = Ok true
             <-> v = js "true")
  /\ validate CheckboxSingle.CheckboxFieldFormElement inst (JStr (js "false"))
     = Ok false
  /\ validateForm reg [inst] [(i, js "true")] = Ok ([(i, true)], true)
  /\ validateForm reg [inst] [(i, js "false")] = Ok ([(i, false)], false).
Proof.
  intros inst. repeat split.
  - intros H. simpl in H. injection H as H. apply jsstr_eqb_true_iff in H. exact H.
  - intros ->. reflexivity.
  - unfold validateForm; simpl. unfold resolve. rewrite Hreg. simpl.
    rewrite jsstr_eqb_refl. reflexivity.
  - unfold validateForm; simpl. unfold resolve. rewrite Hreg. simpl.
    rewrite jsstr_eqb_refl. reflexivity.
Qed.

Lemma single_required_true_only_witness :
  let reg := fun (_ : jsstr) => Some CheckboxSingle.CheckboxFieldFormElement in
  reg CheckboxSingle.type = Some CheckboxSingle.CheckboxFieldFormElement
  /\ validateForm reg [single_instance (js "B") JUndef JUndef] [(js "B", js "true")]
     = Ok ([(js "B", true)], true).
Proof.
  intros reg. split; [reflexivity|].
  exact (proj1 (proj2 (proj2
    (single_required_true_only reg (js "B") JUndef JUndef eq_refl)))).
Defined.

(** C3: each definition's [construct] yields an instance whose
    configuration passes that definition's own [propertiesSchema]. *)
Theorem construct_passes_propertiesSchema :
  (forall i, accepts CheckboxSingle.propertiesSchema
       (extraAttributes (construct CheckboxSingle.CheckboxFieldFormElement i)) = true)
  /\ (forall i, accepts CheckboxGroup.propertiesSchema
       (extraAttributes (construct CheckboxGroup.CheckboxFieldFormElement i)) = true).
Proof. split; intros i; reflexivity. Qed.

(** The configurations [propertiesSchema] is specified to accept. *)
Definition valid_config_single (v : jsval) : Prop :=
  exists fs, v = JObj fs
  /\ (exists l, lookup fs "label" = JStr l
               /\ (2 <= List.length l)%nat /\ (List.length l <= 50)%nat)
  /\ (exists h, lookup fs "helperText" = JStr h /\ (List.length h <= 200)%nat)
  /\ (exists b, lookup fs "required" = JBool b).

Definition valid_config_group (v : jsval) : Prop :=
  valid_config_single v
  /\ exists fs xs, v = JObj fs /\ lookup fs "options" = JArr xs
     /\ Forall (fun x => exists s, x = JStr s) xs /\ (1 <= List.length xs)%nat.

Lemma accepts_single_fields (fs : list (string * jsval)) :
  accepts CheckboxSingle.propertiesSchema (JObj fs) = true
  <-> (exists l, lookup fs "label" = JStr l
                /\ (2 <= List.length l)%nat /\ (List.length l <= 50)%nat)
      /\ (exists h, lookup fs "helperText" = JStr h /\ (List.length h <= 200)%nat)
      /\ (exists b, lookup fs "required" = JBool b).
Proof.
  unfold CheckboxSingle.propertiesSchema.
  rewrite !accepts_object_cons, accepts_object_nil, andb_true_r, !andb_true_iff.
  rewrite !accepts_string_iff, accepts_boolean_iff. unfold min_ok, max_ok. split.
  - intros [(l & Hl & H1 & H2) [(h & Hh & _ & H3) Hb]].
    apply Nat.leb_le in H1, H2, H3. eauto 10.
  - intros [(l & Hl & H1 & H2) [(h & Hh & H3) Hb]].
    apply Nat.leb_le in H1, H2, H3. eauto 10.
Qed.

Lemma accepts_group_split (fs : list (string * jsval)) :
  accepts CheckboxGroup.propertiesSchema (JObj fs)
  = accepts CheckboxSingle.propertiesSchema (JObj fs)
    && accepts (ZArray (ZString None None) (Some 1%nat)) (lookup fs "options").
Proof.
  unfold CheckboxGroup.propertiesSchema, CheckboxSingle.propertiesSchema.
  rewrite !accepts_object_cons, !accepts_object_nil.
  repeat match goal with
         | |- context [accepts ?s ?v] =>
             match v with JObj _ => fail | _ => destruct (accepts s v) end
         end; reflexivity.
Qed.

Lemma accepts_options_iff (v : jsval) :
  accepts (ZArray (ZString None None) (Some 1%nat)) v = true
  <-> exists xs, v = JArr xs /\ Forall (fun x => exists s, x = JStr s) xs
                 /\ (1 <= List.length xs)%nat.
Proof.
  destruct v as [| | | | |xs|];
    try (split; [discriminate | intros (xs & H & _); discriminate]).
  rewrite accepts_array_min, andb_true_iff, accepts_string_array_iff.
  unfold min_ok. rewrite Nat.leb_le. split.
  - intros [F L]; eauto.
  - intros (xs' & H & F & L). injection H as <-. auto.
Qed.

(** C6: the configuration validator of each variant accepts a proposed
    configuration exactly when it is an object whose label is a string of
    2 to 50 code units, whose helperText is a string of at most 200, whose
    required is a boolean and, for the checkbox group, whose options is a
    non-empty array of strings. *)
Theorem propertiesSchema_accepts_iff :
  (forall v, accepts CheckboxSingle.propertiesSchema v = true <-> valid_config_single v)
  /\ (forall v, accepts CheckboxGroup.propertiesSchema v = true <-> valid_config_group v).
Proof.
  split; intros v; (destruct v as [| | | | | |fs];
    [split; [discriminate|
      try (intros [(fs & H & _) _]; discriminate);
      intros (fs & H & _); discriminate] ..|]).
  - rewrite accepts_single_fields. unfold valid_config_single. split.
    + intros H. exists fs. auto.
    + intros (fs' & H & R). injection H as <-. exact R.
  - unfold valid_config_group, valid_config_single.
    rewrite accepts_group_split, andb_true_iff, accepts_single_fields,
      accepts_options_iff. split.
    + intros [R (xs & Hx & F & L)]. split; [exists fs; auto|].
      exists fs, xs. auto.
    + intros [(fs' & H & R) (fs'' & xs & H' & Hx & F & L)].
      injection H as <-. injection H' as <-. split; [exact R|]. eauto.
Qed.

(** C10: a required checkbox group accepts every submitted string with a
    code unit that is not JS white space, whatever its configured options;
    a string made only of white space is rejected. *)
Theorem group_required_nonblank (i : jsstr) (label helperText : jsval)
    (options : list jsval) (s : jsstr) :
  validate CheckboxGroup.CheckboxFieldFormElement
    (group_instance i label helperText options) (JStr s) = Ok true
  <-> exists c, In c s /\ is_js_ws c = false.
Proof.
  assert (E : validate CheckboxGroup.CheckboxFieldFormElement
                (group_instance i label helperText options) (JStr s)
              = Ok (Nat.ltb 0 (List.length (trim s)))) by reflexivity.
  rewrite E, trim_nonempty. split.
  - intros H. injection H as H. apply existsb_exists in H as (c & Hc & Hw).
    apply negb_true_iff in Hw. eauto.
  - intros (c & Hc & Hw). f_equal. apply existsb_exists.
    exists c. rewrite Hw. auto.
Qed.

Example group_accepts_non_option :
  validate CheckboxGroup.CheckboxFieldFormElement
    (group_instance (js "A") (JStr (js "Pick")) (JStr (js ""))
       [JStr (js "Option 1"); JStr (js "Option 2")])
    (JStr (js "Banana")) = Ok true.
Proof. reflexivity. Qed.

(** C9, as stated, fails: [undefined] passed to a required checkbox group
    throws from [currentValue.trim()]. *)
Lemma group_validate_undefined_throws :
  validate CheckboxGroup.CheckboxFieldFormElement
    (group_instance (js "A") (JStr (js "Pick")) (JStr (js ""))
       [JStr (js "Option 1"); JStr (js "Option 2")])
    JUndef = Throw TypeError.
Proof. reflexivity. Qed.

(** C9 (amended): on the empty string, the value of an absent entry for the
    string-typed parameter, [validate] of every definition of this file
    returns an ordinary verdict for every instance whose configuration is an
    object: false when [required] is truthy, true otherwise. *)
Theorem validate_empty_string_total :
  Forall (fun d => forall i t fs,
            validate d {| id := i; type := t; extraAttributes := JObj fs |} (JStr [])
            = Ok (negb (truthy (lookup fs "required"))))
    source_definitions.
Proof.
  unfold source_definitions.
  apply Forall_cons; [|apply Forall_cons; [|apply Forall_nil]];
    intros i t fs; cbn; destruct (truthy (lookup fs "required")); reflexivity.
Qed.

(** C5 fails on this file: its two definitions, shown as "Checkbox Field"
    and "Checkbox Group" in the designer, carry the same tag. *)
Theorem source_definitions_share_tag :
  fe_type CheckboxSingle.CheckboxFieldFormElement
    = fe_type CheckboxGroup.CheckboxFieldFormElement
  /\ designerButtonLabel CheckboxSingle.CheckboxFieldFormElement
     <> designerButtonLabel CheckboxGroup.CheckboxFieldFormElement
  /\ ~ NoDup (map fe_type source_definitions).
Proof.
  split; [reflexivity|]. split; [discriminate|].
  intros H. inversion H as [|x l Hx Hl]. apply Hx. left. reflexivity.
Qed.

(** ** The properties form *)

Lemma parse_object_cons k s sh fs :
  parse (ZObject ((k, s) :: sh)) (JObj fs)
  = match parse s (lookup fs k), parse (ZObject sh) (JObj fs) with
    | Some y, Some (JObj ys) => Some (JObj ((k, y) :: ys))
    | _, _ => None
    end.
Proof.
  simpl. destruct (parse s (lookup fs k)); [|reflexivity].
  match goal with
  | |- context [match ?F sh with _ => _ end] => destruct (F sh)
  end; reflexivity.
Qed.

Lemma parse_array_cons el x xs :
  parse (ZArray el None) (JArr (x :: xs))
  = match parse el x, parse (ZArray el None) (JArr xs) with
    | Some y, Some (JArr ys) => Some (JArr (y :: ys))
    | _, _ => None
    end.
Proof.
  simpl. destruct (parse el x); [|reflexivity].
  match goal with
  | |- context [match ?F xs with _ => _ end] => destruct (F xs)
  end; reflexivity.
Qed.

Lemma parse_array_min el mn xs :
  parse (ZArray el mn) (JArr xs)
  = match parse (ZArray el None) (JArr xs) with
    | Some r => if min_ok mn (List.length xs) then Some r else None
    | None => None
    end.
Proof.
  simpl.
  match goal with
  | |- context [match ?F xs with _ => _ end] => destruct (F xs)
  end; reflexivity.
Qed.

(** Schemas without nested objects give back their input. *)
Fixpoint flat (sc : schema) : bool :=
  match sc with
  | ZObject _ => false
  | ZArray el _ => flat el
  | _ => true
  end.

Lemma parse_flat_id (sc : schema) : flat sc = true ->
  forall v y, parse sc v = Some y -> y = v.
Proof.
  induction sc as [mn mx| |el IH mn|shape]; intros F v y H; simpl in F;
    try discriminate.
  - destruct v; simpl in H; try discriminate.
    destruct (_ && _); [injection H; auto | discriminate].
  - destruct v; simpl in H; try discriminate. injection H; auto.
  - destruct v as [| | | | |xs|]; try (simpl in H; discriminate).
    rewrite parse_array_min in H.
    destruct (parse (ZArray el None) (JArr xs)) as [r|] eqn:E; [|discriminate].
    destruct (min_ok mn (List.length xs)); [|discriminate].
    injection H as <-. clear mn. revert r E.
    induction xs as [|x xs IHx]; intros r E.
    + injection E; auto.
    + rewrite parse_array_cons in E.
      destruct (parse el x) as [y|] eqn:Ex; [|discriminate].
      destruct (parse (ZArray el None) (JArr xs)) as [[| | | | |ys|]|];
        try discriminate.
      injection E as <-. apply IH in Ex; [|exact F]. subst y.
      specialize (IHx _ eq_refl). injection IHx as ->. reflexivity.
Qed.

Lemma parse_shape_flat (shape : list (string * schema)) fs out :
  forallb (fun ks => flat (snd ks)) shape = true ->
  parse (ZObject shape) (JObj fs) = Some out ->
  out = JObj (map (fun ks => (fst ks, lookup fs (fst ks))) shape).
Proof.
  revert out; induction shape as [|[k s] sh IH]; intros out F H.
  - injection H; auto.
  - simpl in F. apply andb_true_iff in F as [Fs Fsh].
    rewrite parse_object_cons in H.
    destruct (parse s (lookup fs k)) as [y|] eqn:Ey; [|discriminate].
    destruct (parse (ZObject sh) (JObj fs)) as [[| | | | | |ys]|] eqn:E;
      try discriminate.
    injection H as <-. apply (parse_flat_id s Fs) in Ey. subst y.
    specialize (IH _ Fsh eq_refl). injection IH as ->. reflexivity.
Qed.

Lemma parse_object_inv (shape : list (string * schema)) v out :
  parse (ZObject shape) v = Some out -> exists fs, v = JObj fs.
Proof. destruct v; try discriminate; eauto. Qed.

(** C7: committing the properties form ([onBlur] running
    [handleSubmit(applyChanges)]) leaves the document unchanged when the
    form values fail [propertiesSchema]; when they pass, it replaces the
    edited instance by one whose configuration is exactly the validated
    attributes, read from the form values. *)
Theorem properties_onBlur_atomic :
  (forall element formValues elements,
     (accepts CheckboxSingle.propertiesSchema formValues = false ->
      CheckboxSingle.onBlur element formValues elements = elements)
     /\ (forall out, parse CheckboxSingle.propertiesSchema formValues = Some out ->
         out = JObj [("label", prop formValues "label");
                     ("helperText", prop formValues "helperText");
                     ("required", prop formValues "required")]
         /\ CheckboxSingle.onBlur element formValues elements
            = updateElement (id element)
                {| id := id element; type := type element;
                   extraAttributes := out |} elements))
  /\ (forall element formValues elements,
     (accepts CheckboxGroup.propertiesSchema formValues = false ->
      CheckboxGroup.onBlur element formValues elements = elements)
     /\ (forall out, parse CheckboxGroup.propertiesSchema formValues = Some out ->
         out = JObj [("label", prop formValues "label");
                     ("helperText", prop formValues "helperText");
                     ("required", prop formValues "required");
                     ("options", prop formValues "options")]
         /\ CheckboxGroup.onBlur element formValues elements
            = updateElement (id element)
                {| id := id element; type := type element;
                   extraAttributes := out |} elements)).
Proof.
  split; intros element formValues elements; split.
  1, 3: intros Hf; unfold CheckboxSingle.onBlur, CheckboxGroup.onBlur,
          handleSubmit; unfold accepts in Hf;
        destruct (parse _ formValues); [discriminate | reflexivity].
  all: intros out H; destruct (parse_object_inv _ _ _ H) as [fs ->];
    pose proof H as Hout;
    unfold CheckboxSingle.propertiesSchema, CheckboxGroup.propertiesSchema in Hout;
    apply parse_shape_flat in Hout; [|reflexivity];
    simpl in Hout; subst out; split; [reflexivity|];
    unfold CheckboxSingle.onBlur, CheckboxGroup.onBlur, handleSubmit;
    rewrite H; reflexivity.
Qed.

Lemma properties_onBlur_atomic_witness :
  let element := CheckboxSingle.construct (js "A") in
  let bad := JObj [("label", JStr (js "x")); ("helperText", JStr (js ""));
                   ("required", JBool true)] in
  let good := JObj [("label", JStr (js "Agree")); ("helperText", JStr (js ""));
                    ("required", JBool false); ("extra", JNum 1)] in
  CheckboxSingle.onBlur element bad [element] = [element]
  /\ CheckboxSingle.onBlur element good [element]
     = [{| id := js "A"; type := CheckboxSingle.type;
           extraAttributes := JObj [("label", JStr (js "Agree"));
                                    ("helperText", JStr (js ""));
                                    ("required", JBool false)] |}].
Proof.
  intros element bad good. split.
  - exact (proj1 (proj1 properties_onBlur_atomic element bad [element]) eq_refl).
  - exact (proj2 (proj2 (proj1 properties_onBlur_atomic element good [element])
             _ eq_refl)).
Defined.

(** ** Submission validation *)

Lemma perField_agree (reg : Registry) (doc : list FormElementInstance)
    (vs vs' : SubmissionValues) :
  (forall inst, In inst doc -> value_of vs (id inst) = value_of vs' (id inst)) ->
  perField reg doc vs = perField reg doc vs'.
Proof.
  induction doc as [|inst doc IH]; intros Hagree; simpl; [reflexivity|].
  rewrite (Hagree inst (or_introl eq_refl)).
  rewrite IH; [reflexivity|]. intros x Hx. apply Hagree. right. exact Hx.
Qed.

(** C8: the validation report is a function of the document and of the
    submitted values of the document's ids only; in particular two
    invocations on identical inputs give identical reports. *)
Theorem validateForm_deterministic (reg : Registry)
    (doc : list FormElementInstance) (vs vs' : SubmissionValues)
    (Hagree : forall inst, In inst doc ->
              value_of vs (id inst) = value_of vs' (id inst)) :
  validateForm reg doc vs = validateForm reg doc vs'.
Proof.
  unfold validateForm. rewrite (perField_agree reg doc vs vs' Hagree).
  reflexivity.
Qed.

Lemma validateForm_deterministic_witness :
  let reg := fun (_ : jsstr) => Some CheckboxSingle.CheckboxFieldFormElement in
  let doc := [single_instance (js "B") JUndef JUndef] in
  validateForm reg doc [(js "B", js "true")]
  = validateForm reg doc [(js "C", js "x"); (js "B", js "true")].
Proof.
  intros reg doc. apply validateForm_deterministic.
  intros inst Hin. simpl in Hin. destruct Hin as [<- | []]. reflexivity.
Defined.

(** ** Sharing of the default configuration *)

(** C4, as stated, fails: two instances constructed from the group
    definition refer to the one module-level [extraAttributes] object, so
    writing a property through one is seen through the other. *)
Lemma construct_aliases_defaults :
  let '(t, h) := Aliasing.load CheckboxGroup.extraAttributes Aliasing.empty in
  let a := Aliasing.construct CheckboxGroup.type t (js "a") in
  let b := Aliasing.construct CheckboxGroup.type t (js "b") in
  Aliasing.i_attrs a = Aliasing.i_attrs b
  /\ Aliasing.read (Aliasing.set_prop h (Aliasing.i_attrs a) "label"
                      (JStr (js "Edited")))
       (Aliasing.i_attrs b)
     <> Aliasing.read h (Aliasing.i_attrs b).
Proof. vm_compute. split; [reflexivity | discriminate]. Qed.

Lemma aliasing_updateElement_keeps i el es b :
  In b es -> jsstr_eqb (Aliasing.i_id b) i = false ->
  In b (Aliasing.updateElement i el es).
Proof.
  induction es as [|e es IH]; simpl; [tauto|].
  intros [-> | Hb] Hne.
  - rewrite Hne. left. reflexivity.
  - destruct (jsstr_eqb (Aliasing.i_id e) i); right; auto.
Qed.

Lemma aliasing_updateElement_sub i el es e :
  In e (Aliasing.updateElement i el es) -> e = el \/ In e es.
Proof.
  induction es as [|x es IH]; simpl; [tauto|].
  destruct (jsstr_eqb (Aliasing.i_id x) i); simpl.
  - intros [<- | H]; auto.
  - intros [<- | H]; [auto|]. destruct (IH H); auto.
Qed.

Lemma aliasing_updateElement_split i el pre e post :
  Forall (fun x => jsstr_eqb (Aliasing.i_id x) i = false) pre ->
  jsstr_eqb (Aliasing.i_id e) i = true ->
  Aliasing.updateElement i el (pre ++ e :: post)%list = (pre ++ el :: post)%list.
Proof.
  induction 1 as [|x pre Hx _ IH]; intros He; simpl.
  - rewrite He. reflexivity.
  - rewrite Hx, IH by exact He. reflexivity.
Qed.

(** C4 (amended): [construct] hands every instance the variant's one
    module-level default object, by reference; [applyChanges], the path
    that commits an edited configuration, never writes into an existing
    object: it stores the validated attributes in a fresh cell, keeps every
    other instance of the document, and points only the edited one at the
    fresh cell. *)
Theorem construct_shares_edit_fresh (tag : jsstr) (keys : list string)
    (h : Aliasing.Heap) (template : nat) (i1 i2 : jsstr)
    (element : Aliasing.Instance) (values : jsval)
    (elements : list Aliasing.Instance) :
  Aliasing.i_attrs (Aliasing.construct tag template i1) = template
  /\ Aliasing.i_attrs (Aliasing.construct tag template i2) = template
  /\ let r := Aliasing.applyChanges keys h element values elements in
     (forall l, l <> Aliasing.next h -> Aliasing.read (fst r) l = Aliasing.read h l)
     /\ Aliasing.read (fst r) (Aliasing.next h)
        = Some (map (fun k => (k, prop values k)) keys)
     /\ (forall b, In b elements ->
         jsstr_eqb (Aliasing.i_id b) (Aliasing.i_id element) = false ->
         In b (snd r))
     /\ (forall e, In e (snd r) -> In e elements \/ Aliasing.i_attrs e = Aliasing.next h)
     /\ (forall pre e post,
         Forall (fun x => jsstr_eqb (Aliasing.i_id x) (Aliasing.i_id element) = false) pre ->
         jsstr_eqb (Aliasing.i_id e) (Aliasing.i_id element) = true ->
         elements = (pre ++ e :: post)%list ->
         snd r = (pre ++ {| Aliasing.i_id := Aliasing.i_id element;
                            Aliasing.i_type := Aliasing.i_type element;
                            Aliasing.i_attrs := Aliasing.next h |} :: post)%list).
Proof.
  split; [reflexivity|]. split; [reflexivity|].
  unfold Aliasing.applyChanges, Aliasing.alloc, Aliasing.read; simpl.
  split; [|split; [|split; [|split]]].
  - intros l Hl. apply Nat.eqb_neq in Hl. rewrite Hl. reflexivity.
  - rewrite Nat.eqb_refl. reflexivity.
  - intros b Hb Hne. apply aliasing_updateElement_keeps; assumption.
  - intros e He. apply aliasing_updateElement_sub in He as [-> | He]; auto.
  - intros pre e post Hpre He ->. apply aliasing_updateElement_split; assumption.
Qed.

Lemma construct_shares_edit_fresh_witness :
  let lt := Aliasing.load CheckboxGroup.extraAttributes Aliasing.empty in
  let a := Aliasing.construct CheckboxGroup.type (fst lt) (js "a") in
  let b := Aliasing.construct CheckboxGroup.type (fst lt) (js "b") in
  let vals := JObj [("label", JStr (js "Edited")); ("helperText", JStr (js ""));
                    ("required", JBool true); ("options", JArr [JStr (js "x")])] in
  Aliasing.read (fst (Aliasing.applyChanges Aliasing.group_keys (snd lt) a vals [a; b]))
    (fst lt)
  = Aliasing.read (snd lt) (fst lt)
  /\ snd (Aliasing.applyChanges Aliasing.group_keys (snd lt) a vals [a; b])
     = [{| Aliasing.i_id := js "a"; Aliasing.i_type := CheckboxGroup.type;
           Aliasing.i_attrs := Aliasing.next (snd lt) |}; b].
Proof.
  intros lt a b vals.
  pose proof (construct_shares_edit_fresh CheckboxGroup.type Aliasing.group_keys
                (snd lt) (fst lt) (js "a") (js "b") a vals [a; b])
    as (_ & _ & Hread & _ & _ & _ & Hrepl).
  split.
  - apply Hread. vm_compute. discriminate.
  - apply (Hrepl [] a [b]); [constructor | reflexivity | reflexivity].
Defined.

(** ** The form components *)

Example finalOptions_example :
  CheckboxGroupOptions.finalOptions (js " Red ,, Blue , ") = [js "Red"; js "Blue"].
Proof. reflexivity. Qed.

Example finalOptions_blank_example :
  CheckboxGroupOptions.finalOptions (js " , ") = [js "Option 1"].
Proof. reflexivity. Qed.

Example initialSelected_example :
  CheckboxGroupForm.initialSelected (Some (js "a,, ,b")) = [js "a"; js "b"].
Proof. reflexivity. Qed.

Lemma split_at_nosep (c : Z) (w : jsstr) : ~ In c w -> split_at c w = [w].
Proof.
  induction w as [|x w IH]; intros H; simpl; [reflexivity|].
  destruct (Z.eqb_spec x c) as [->|Hx]; [exfalso; apply H; left; reflexivity|].
  rewrite IH; [reflexivity|]. intros Hc; apply H; right; exact Hc.
Qed.

Lemma split_at_app (c : Z) (w r : jsstr) :
  ~ In c w -> split_at c (w ++ c :: r)%list = w :: split_at c r.
Proof.
  induction w as [|x w IH]; intros H; simpl.
  - rewrite Z.eqb_refl. reflexivity.
  - destruct (Z.eqb_spec x c) as [->|Hx]; [exfalso; apply H; left; reflexivity|].
    rewrite IH; [reflexivity|]. intros Hc; apply H; right; exact Hc.
Qed.

Lemma split_at_pieces (c : Z) (s w : jsstr) : In w (split_at c s) -> ~ In c w.
Proof.
  revert w; induction s as [|x s IH]; intros w; simpl.
  - intros [<- | []]; simpl; tauto.
  - destruct (Z.eqb_spec x c) as [->|Hx].
    + intros [<- | Hw]; [simpl; tauto | exact (IH w Hw)].
    + destruct (split_at c s) as [|w0 ws0] eqn:E.
      * intros [<- | []]. simpl. intros [H|[]]. congruence.
      * intros [<- | Hw].
        -- simpl. intros [H|H]; [congruence|]. apply (IH w0); [left; reflexivity | exact H].
        -- apply IH. right. exact Hw.
Qed.

Lemma split_join_comma (ws : list jsstr) (w : jsstr) :
  Forall (fun o => ~ In comma o) (w :: ws) ->
  split_at comma (join [comma] (w :: ws)) = w :: ws.
Proof.
  revert w; induction ws as [|w2 ws IH]; intros w F.
  - inversion F; subst. simpl. apply split_at_nosep. assumption.
  - inversion F as [|x l Hw F']; subst.
    change (join [comma] (w :: w2 :: ws))
      with (w ++ comma :: join [comma] (w2 :: ws))%list.
    rewrite split_at_app by exact Hw. rewrite IH by exact F'. reflexivity.
Qed.

Lemma split_at_cons_other (c x : Z) (r : jsstr) : x <> c ->
  split_at c (x :: r)
  = match split_at c r with [] => [[x]] | w :: ws => (x :: w) :: ws end.
Proof. intros H. simpl. apply Z.eqb_neq in H. rewrite H. reflexivity. Qed.

Lemma split_join_comma_space (ws : list jsstr) (w : jsstr) :
  Forall (fun o => ~ In comma o) (w :: ws) ->
  split_at comma (join [comma; 32] (w :: ws)) = w :: map (cons 32) ws.
Proof.
  revert w; induction ws as [|w2 ws IH]; intros w F.
  - inversion F; subst. simpl. apply split_at_nosep. assumption.
  - inversion F as [|x l Hw F']; subst.
    change (join [comma; 32] (w :: w2 :: ws))
      with (w ++ comma :: 32 :: join [comma; 32] (w2 :: ws))%list.
    rewrite split_at_app by exact Hw.
    rewrite split_at_cons_other by discriminate. rewrite IH by exact F'.
    reflexivity.
Qed.

(** Leading white space. *)
Definition noLead (l : jsstr) : bool :=
  match l with [] => true | c :: _ => negb (is_js_ws c) end.

Lemma drop_ws_noLead (l : jsstr) : noLead (drop_ws l) = true.
Proof.
  induction l as [|c l IH]; simpl; [reflexivity|].
  destruct (is_js_ws c) eqn:E; simpl; [exact IH | rewrite E; reflexivity].
Qed.

Lemma drop_ws_id (l : jsstr) : noLead l = true -> drop_ws l = l.
Proof.
  destruct l as [|c l]; simpl; [reflexivity|].
  intros H. apply negb_true_iff in H. rewrite H. reflexivity.
Qed.

Lemma drop_ws_suffix (l : jsstr) : exists p, l = (p ++ drop_ws l)%list.
Proof.
  induction l as [|c l [p Hp]]; simpl; [exists []; reflexivity|].
  destruct (is_js_ws c); [exists (c :: p); simpl; congruence | exists []; reflexivity].
Qed.

Lemma trim_noLead_both (s : jsstr) :
  noLead (trim s) = true /\ noLead (rev (trim s)) = true.
Proof.
  unfold trim. rewrite rev_involutive. split; [|apply drop_ws_noLead].
  destruct (drop_ws_suffix (rev (drop_ws s))) as [p Hp].
  remember (drop_ws (rev (drop_ws s))) as u eqn:Hu.
  pose proof (drop_ws_noLead s) as Hd.
  apply (f_equal (@rev Z)) in Hp. rewrite rev_involutive, rev_app_distr in Hp.
  destruct (rev u) as [|c t]; [reflexivity|].
  rewrite Hp in Hd. exact Hd.
Qed.

Lemma trim_id (s : jsstr) : noLead s = true -> noLead (rev s) = true -> trim s = s.
Proof.
  intros H1 H2. unfold trim. rewrite (drop_ws_id s H1), (drop_ws_id _ H2).
  apply rev_involutive.
Qed.

Lemma trim_trim (s : jsstr) : trim (trim s) = trim s.
Proof. destruct (trim_noLead_both s). apply trim_id; assumption. Qed.

Lemma trim_space (o : jsstr) : trim (32 :: o) = trim o.
Proof. reflexivity. Qed.

Lemma trim_sub (c : Z) (s : jsstr) : In c (trim s) -> In c s.
Proof.
  unfold trim. intros H. apply in_rev in H.
  destruct (drop_ws_suffix (rev (drop_ws s))) as [p Hp].
  assert (In c (rev (drop_ws s))) as H1.
  { rewrite Hp. apply in_or_app. right. exact H. }
  apply in_rev in H1.
  destruct (drop_ws_suffix s) as [q Hq]. rewrite Hq. apply in_or_app. right. exact H1.
Qed.

Lemma existsb_join_comma (f : Z -> bool) (w : jsstr) (ws : list jsstr) :
  existsb f w = true -> existsb f (join [comma] (w :: ws)) = true.
Proof.
  intros H. destruct ws as [|w2 ws]; [exact H|].
  change (join [comma] (w :: w2 :: ws))
    with (w ++ comma :: join [comma] (w2 :: ws))%list.
  rewrite existsb_app, H. reflexivity.
Qed.

Lemma filter_all {A} (f : A -> bool) (l : list A) :
  Forall (fun x => f x = true) l -> filter f l = l.
Proof.
  induction 1 as [|x l Hx _ IH]; simpl; [reflexivity|]. rewrite Hx, IH. reflexivity.
Qed.

(** A string with a code unit that is not white space. *)
Definition nonblank (o : jsstr) : bool := existsb (fun c => negb (is_js_ws c)) o.

Lemma group_validate_string (i t : jsstr) fs (v : jsstr) :
  validate CheckboxGroup.CheckboxFieldFormElement
    {| id := i; type := t; extraAttributes := JObj fs |} (JStr v)
  = if truthy (lookup fs "required") then Ok (Nat.ltb 0 (List.length (trim v)))
    else Ok true.
Proof. reflexivity. Qed.

Lemma single_validate_string (i t : jsstr) fs (v : jsstr) :
  validate CheckboxSingle.CheckboxFieldFormElement
    {| id := i; type := t; extraAttributes := JObj fs |} (JStr v)
  = if truthy (lookup fs "required") then Ok (jsstr_eqb v (js "true"))
    else Ok true.
Proof. reflexivity. Qed.

Lemma newSelected_Forall (P : jsstr -> Prop) selected o b :
  Forall P (o :: selected) ->
  Forall P (CheckboxGroupForm.newSelected selected o b).
Proof.
  intros F. inversion F as [|x l Ho Hs]; subst.
  unfold CheckboxGroupForm.newSelected. destruct b.
  - apply Forall_app. split; [exact Hs | constructor; [exact Ho | constructor]].
  - apply Forall_forall. intros x Hx. apply filter_In in Hx as [Hx _].
    rewrite Forall_forall in Hs. apply Hs. exact Hx.
Qed.

Lemma initialSelected_join (sel : list jsstr) :
  Forall (fun o => ~ In comma o /\ nonblank o = true) sel ->
  CheckboxGroupForm.initialSelected (Some (join [comma] sel)) = sel.
Proof.
  intros F. destruct sel as [|w ws]; [reflexivity|].
  unfold CheckboxGroupForm.initialSelected.
  assert (nonblank w = true) as Hw by (inversion F as [|x l [_ H] _]; exact H).
  pose proof (existsb_join_comma _ w ws Hw) as Hj.
  destruct (join [comma] (w :: ws)) as [|c j] eqn:E; [discriminate|].
  simpl truthy. cbv iota. rewrite <- E.
  rewrite split_join_comma by (eapply Forall_impl; [|exact F]; intros o [H _]; exact H).
  apply filter_all. eapply Forall_impl; [|exact F]. intros o [_ H].
  unfold nonblank in H. rewrite <- trim_nonempty in H.
  destruct (trim o); [discriminate | reflexivity].
Qed.

Lemma finalOptions_clean (s : jsstr) :
  CheckboxGroupOptions.finalOptions s <> []
  /\ Forall (fun o => o <> [] /\ trim o = o /\ ~ In comma o)
       (CheckboxGroupOptions.finalOptions s).
Proof.
  unfold CheckboxGroupOptions.finalOptions.
  set (options := filter _ _).
  destruct (Nat.ltb 0 (List.length options)) eqn:L.
  - split; [intros E; rewrite E in L; discriminate|].
    apply Forall_forall. intros o Ho. unfold options in Ho.
    apply filter_In in Ho as [Hm Hl]. apply in_map_iff in Hm as (w & <- & Hw).
    split; [intros E; rewrite E in Hl; discriminate|].
    split; [apply trim_trim|].
    intros Hc. apply trim_sub in Hc. exact (split_at_pieces comma s w Hw Hc).
  - split; [discriminate|].
    constructor; [|constructor].
    split; [discriminate|]. split; [reflexivity|].
    simpl. unfold comma. lia.
Qed.

Lemma map_trim_space (os : list jsstr) :
  Forall (fun o => trim o = o) os -> map trim (map (cons 32) os) = os.
Proof.
  induction 1 as [|o os Ho _ IH]; simpl; [reflexivity|].
  rewrite trim_space, Ho, IH. reflexivity.
Qed.

Lemma finalOptions_join (opts : list jsstr) :
  opts <> [] ->
  Forall (fun o => o <> [] /\ trim o = o /\ ~ In comma o) opts ->
  CheckboxGroupOptions.finalOptions (join [comma; 32] opts) = opts.
Proof.
  intros Hne F. destruct opts as [|o os]; [contradiction|].
  unfold CheckboxGroupOptions.finalOptions.
  rewrite split_join_comma_space
    by (eapply Forall_impl; [|exact F]; intros x (_ & _ & H); exact H).
  inversion F as [|x l (Ho1 & Ho2 & _) Fos]; subst.
  simpl map. rewrite Ho2.
  rewrite map_trim_space by (eapply Forall_impl; [|exact Fos]; intros x (_ & H & _); exact H).
  rewrite filter_all.
  - simpl. reflexivity.
  - constructor.
    + destruct o; [contradiction | reflexivity].
    + eapply Forall_impl; [|exact Fos]. intros x (H & _ & _).
      destruct x; [contradiction | reflexivity].
Qed.

(** ** Extra properties of the form components *)

(** The single checkbox's [handleChange] submits a value on which
    [validate] agrees with the [validateField] verdict shown in the form,
    keyed by the instance id, and from which the component's initial state
    restores the same checkbox state. *)
Theorem single_handleChange_consistent (i t : jsstr) (fs : list (string * jsval))
    (isChecked : bool) :
  let element := {| id := i; type := t; extraAttributes := JObj fs |} in
  let r := CheckboxSingleForm.handleChange element isChecked in
  validate CheckboxSingle.CheckboxFieldFormElement element (JStr (snd (snd r)))
    = Ok (fst (snd (fst r)))
  /\ fst (snd r) = i
  /\ CheckboxSingleForm.initialChecked (Some (snd (snd r))) = fst (fst r).
Proof.
  intros element r. subst element r.
  unfold CheckboxSingleForm.handleChange, CheckboxSingleForm.validateField.
  simpl fst; simpl snd. rewrite single_validate_string. simpl prop.
  split; [|split; [reflexivity|]];
    destruct isChecked, (truthy (lookup fs "required")); reflexivity.
Qed.

(** The checkbox group's [handleChange], on options that each hold a
    non-white-space code unit, submits a value on which [validate] agrees
    with the [validateField] verdict shown in the form. *)
Theorem group_handleChange_consistent (i t : jsstr) (fs : list (string * jsval))
    (selectedOptions : list jsstr) (option' : jsstr) (isChecked : bool)
    (Hclean : Forall (fun o => nonblank o = true) (option' :: selectedOptions)) :
  let element := {| id := i; type := t; extraAttributes := JObj fs |} in
  let r := CheckboxGroupForm.handleChange element selectedOptions option' isChecked in
  validate CheckboxGroup.CheckboxFieldFormElement element (JStr (snd (snd r)))
    = Ok (fst (snd (fst r))).
Proof.
  intros element r. subst element r. unfold CheckboxGroupForm.handleChange. simpl.
  rewrite group_validate_string.
  pose proof (newSelected_Forall _ _ _ isChecked Hclean) as F.
  unfold CheckboxGroupForm.validateField. simpl prop.
  destruct (truthy (lookup fs "required")); [|reflexivity]. simpl andb.
  destruct (CheckboxGroupForm.newSelected selectedOptions option' isChecked)
    as [|w ws]; [reflexivity|].
  rewrite trim_nonempty. inversion F as [|x l Hw _]; subst.
  rewrite (existsb_join_comma _ w ws Hw). reflexivity.
Qed.

Lemma group_handleChange_consistent_witness :
  let element := {| id := js "G"; type := CheckboxGroup.type;
                    extraAttributes := JObj [("required", JBool true)] |} in
  validate CheckboxGroup.CheckboxFieldFormElement element
    (JStr (snd (snd (CheckboxGroupForm.handleChange element [js "Option 1"]
                       (js "Option 1") false))))
  = Ok (fst (snd (fst (CheckboxGroupForm.handleChange element [js "Option 1"]
                         (js "Option 1") false)))).
Proof.
  intros element.
  apply (group_handleChange_consistent (js "G") CheckboxGroup.type
           [("required", JBool true)] [js "Option 1"] (js "Option 1") false).
  repeat constructor.
Defined.

(** The checkbox group's [handleChange], on options free of commas and each
    holding a non-white-space code unit, submits a comma-joined value from
    which the component's initial state ([defaultValue] parsing) restores
    exactly the new selection, in order. *)
Theorem group_handleChange_roundtrip (element : FormElementInstance)
    (selectedOptions : list jsstr) (option' : jsstr) (isChecked : bool)
    (Hclean : Forall (fun o => ~ In comma o /\ nonblank o = true)
                (option' :: selectedOptions)) :
  let r := CheckboxGroupForm.handleChange element selectedOptions option' isChecked in
  CheckboxGroupForm.initialSelected (Some (snd (snd r))) = fst (fst r).
Proof.
  simpl. apply initialSelected_join. apply newSelected_Forall. exact Hclean.
Qed.

Lemma group_handleChange_roundtrip_witness :
  let element := CheckboxGroup.construct (js "G") in
  CheckboxGroupForm.initialSelected
    (Some (snd (snd (CheckboxGroupForm.handleChange element [js "Option 1"]
                       (js "Option 3") true))))
  = fst (fst (CheckboxGroupForm.handleChange element [js "Option 1"]
                (js "Option 3") true)).
Proof.
  intros element.
  apply (group_handleChange_roundtrip element [js "Option 1"] (js "Option 3") true).
  repeat constructor; try reflexivity; simpl; unfold comma; lia.
Defined.

(** The options editor's [onBlur] always commits a non-empty list of
    non-empty, trimmed, comma-free options, so the committed list passes
    the group's [options] schema ([z.array(z.string()).min(1)]). *)
Theorem finalOptions_valid (optionsInput : jsstr) :
  CheckboxGroupOptions.finalOptions optionsInput <> []
  /\ Forall (fun o => o <> [] /\ trim o = o /\ ~ In comma o)
       (CheckboxGroupOptions.finalOptions optionsInput)
  /\ accepts (ZArray (ZString None None) (Some 1%nat))
       (JArr (map JStr (CheckboxGroupOptions.finalOptions optionsInput))) = true.
Proof.
  destruct (finalOptions_clean optionsInput) as [Hne F].
  split; [exact Hne|]. split; [exact F|].
  apply accepts_options_iff. eexists; split; [reflexivity|]. split.
  - apply Forall_forall. intros x Hx. apply in_map_iff in Hx as (s & <- & _). eauto.
  - rewrite length_map.
    destruct (CheckboxGroupOptions.finalOptions optionsInput);
      [contradiction | simpl; lia].
Qed.

(** Reading back a list of non-empty, trimmed, comma-free options from its
    [", "]-joined text (the editor's initial [optionsInput]) gives the list
    itself. *)
Theorem finalOptions_initialOptionsInput (options : list jsstr)
    (Hne : options <> [])
    (Hclean : Forall (fun o => o <> [] /\ trim o = o /\ ~ In comma o) options) :
  CheckboxGroupOptions.finalOptions
    (CheckboxGroupOptions.initialOptionsInput options) = options.
Proof. apply finalOptions_join; assumption. Qed.

Lemma finalOptions_initialOptionsInput_witness :
  CheckboxGroupOptions.finalOptions
    (CheckboxGroupOptions.initialOptionsInput [js "Red"; js "Blue"])
  = [js "Red"; js "Blue"].
Proof.
  apply finalOptions_initialOptionsInput; [discriminate|].
  repeat constructor; try discriminate; simpl; unfold comma; lia.
Defined.

(** After [onBlur] rewrites the input to [finalOptions.join(", ")],
    blurring again commits the same options and leaves the text as it is. *)
Theorem options_onBlur_idempotent (optionsInput : jsstr) :
  CheckboxGroupOptions.finalOptions (CheckboxGroupOptions.onBlurInput optionsInput)
    = CheckboxGroupOptions.finalOptions optionsInput
  /\ CheckboxGroupOptions.onBlurInput (CheckboxGroupOptions.onBlurInput optionsInput)
    = CheckboxGroupOptions.onBlurInput optionsInput.
Proof.
  destruct (finalOptions_clean optionsInput) as [Hne F].
  assert (E : CheckboxGroupOptions.finalOptions
                (CheckboxGroupOptions.onBlurInput optionsInput)
              = CheckboxGroupOptions.finalOptions optionsInput)
    by (apply finalOptions_join; assumption).
  split; [exact E|].
  unfold CheckboxGroupOptions.onBlurInput at 1. rewrite E. reflexivity.
Qed.
